(** * SafetyNet: a shallow embedding of [safetynet.py]

    The program is one class, [SafetyNet], whose three callbacks are
    invoked by the vehicle link (dronekit) when the [armed], [mode] and
    [location.global_relative_frame] attributes of the vehicle change.

    Numbers.  Altitudes and timestamps are Python floats; every finite
    float is a rational, and Python compares a float with an int exactly,
    so readings are modelled in [Q] and compared with [Qle_bool] and
    [Qeq_bool].  The threshold [safe_alt] is the [int] produced by
    [argparse] ([type=int]), so [safe_alt + 1] is exact integer
    arithmetic and is modelled in [Z].  A float difference is zero
    exactly when its operands are equal, so the test deciding whether
    [c_pos/c_time] raises [ZeroDivisionError] is the test [c_time == 0] on
    rationals.  The quotient itself is only ever logged; it is kept as the
    exact rational.

    Effects.  A method body runs in a small monad that threads the object
    ([self]), accumulates the trace of what the method sends out (the
    assignment to [vehicle.mode], which is the mode-override command, and
    the log records) and stops at a raised exception, keeping the object
    as it was when the exception was raised. *)

From Stdlib Require Import Bool List String ZArith QArith Lia.
Import ListNotations.

Local Open Scope string_scope.
Local Open Scope Q_scope.

(** ** The vehicle link *)

(** The bound methods that the program registers as listeners. *)
Inductive Callback : Type :=
| CbArmed
| CbMode
| CbLocation.

Definition Callback_eqb (a b : Callback) : bool :=
  match a, b with
  | CbArmed, CbArmed | CbMode, CbMode | CbLocation, CbLocation => true
  | _, _ => false
  end.

Definition Listener : Type := (string * Callback)%type.

Definition Listener_eqb (a b : Listener) : bool :=
  String.eqb (fst a) (fst b) && Callback_eqb (snd a) (snd b).

(** What the program reads from and registers on the vehicle handle:
    [vehicle.armed], [vehicle.location.global_relative_frame.alt], the
    observers of the vehicle and the observers of [vehicle.location]. *)
Record Vehicle : Type := mkVehicle {
  armed : bool;
  alt : Q;
  attribute_listeners : list Listener;
  location_listeners : list Listener
}.

(** dronekit's [add_attribute_listener] appends the observer unless it is
    already registered for the attribute. *)
Definition add_attribute_listener (l : Listener) (ls : list Listener)
  : list Listener :=
  if existsb (Listener_eqb l) ls then ls else ls ++ [l].

(** dronekit's [remove_attribute_listener] removes the observer's first
    registration; with no registration for the attribute it does
    nothing. *)
Fixpoint remove_attribute_listener (l : Listener) (ls : list Listener)
  : list Listener :=
  match ls with
  | [] => []
  | x :: rest =>
      if Listener_eqb l x then rest
      else x :: remove_attribute_listener l rest
  end.

(** ** The monitor object and what a method sends out *)

Record SafetyNet : Type := mkSafetyNet {
  vehicle : Vehicle;
  safe_alt : Z;
  safe_mode : string;
  active : bool;
  enabled : bool;
  last_alt : Q;
  last_alt_time : Q
}.

Inductive Level : Type := INFO | WARNING.

Inductive LogArg : Type :=
| NoArg
| StrArg (s : string)
| NumArg (q : Q).

Inductive Effect : Type :=
| SetMode (m : string)                          (* vehicle.mode = m *)
| Log (lvl : Level) (fmt : string) (arg : LogArg).

Inductive Exn : Type := ZeroDivisionError.

Inductive Res (A : Type) : Type :=
| Ret (a : A)
| Raise (e : Exn).
Arguments Ret {A} a.
Arguments Raise {A} e.

Record Out (A : Type) : Type := mkOut {
  result : Res A;
  final : SafetyNet;
  trace : list Effect
}.
Arguments mkOut {A} result final trace.
Arguments result {A} o.
Arguments final {A} o.
Arguments trace {A} o.

Module Method.

Definition M (A : Type) : Type := SafetyNet -> Out A.

Definition ret {A} (a : A) : M A := fun s => mkOut (Ret a) s [].

Definition bind {A B} (m : M A) (f : A -> M B) : M B :=
  fun s =>
    let o := m s in
    match result o with
    | Ret a =>
        let o' := f a (final o) in
        mkOut (result o') (final o') (trace o ++ trace o')
    | Raise e => mkOut (Raise e) (final o) (trace o)
    end.

Definition get : M SafetyNet := fun s => mkOut (Ret s) s [].

Definition modify (f : SafetyNet -> SafetyNet) : M unit :=
  fun s => mkOut (Ret tt) (f s) [].

Definition emit (e : Effect) : M unit := fun s => mkOut (Ret tt) s [e].

Definition raise {A} (e : Exn) : M A := fun s => mkOut (Raise e) s [].

End Method.
Import Method.

Declare Scope method_scope.
Delimit Scope method_scope with method.
Notation "x <- m ;; k" := (bind m (fun x => k))
  (at level 61, m at next level, right associativity) : method_scope.
Notation "m ;; k" := (bind m (fun _ => k))
  (at level 61, right associativity) : method_scope.
Local Open Scope method_scope.

(** Field assignments [self.f = v]. *)
Definition set_vehicle (v : Vehicle) (s : SafetyNet) : SafetyNet :=
  mkSafetyNet v (safe_alt s) (safe_mode s) (active s) (enabled s)
              (last_alt s) (last_alt_time s).
Definition set_active (b : bool) (s : SafetyNet) : SafetyNet :=
  mkSafetyNet (vehicle s) (safe_alt s) (safe_mode s) b (enabled s)
              (last_alt s) (last_alt_time s).
Definition set_enabled (b : bool) (s : SafetyNet) : SafetyNet :=
  mkSafetyNet (vehicle s) (safe_alt s) (safe_mode s) (active s) b
              (last_alt s) (last_alt_time s).
Definition set_last_alt (q : Q) (s : SafetyNet) : SafetyNet :=
  mkSafetyNet (vehicle s) (safe_alt s) (safe_mode s) (active s) (enabled s)
              q (last_alt_time s).
Definition set_last_alt_time (q : Q) (s : SafetyNet) : SafetyNet :=
  mkSafetyNet (vehicle s) (safe_alt s) (safe_mode s) (active s) (enabled s)
              (last_alt s) q.

Definition with_attribute_listeners (ls : list Listener) (v : Vehicle)
  : Vehicle :=
  mkVehicle (armed v) (alt v) ls (location_listeners v).
Definition with_location_listeners (ls : list Listener) (v : Vehicle)
  : Vehicle :=
  mkVehicle (armed v) (alt v) (attribute_listeners v) ls.

(** Strict comparisons on readings, from the decidable [<=]. *)
Definition Qlt_bool (x y : Q) : bool := negb (Qle_bool y x).
Definition Qgt_bool (x y : Q) : bool := Qlt_bool y x.

(** Python's [/] on numbers: [ZeroDivisionError] on a zero divisor. *)
Definition truediv (x y : Q) : M Q :=
  if Qeq_bool y 0 then raise ZeroDivisionError else ret (x / y).

Definition LOG_info (fmt : string) (arg : LogArg) : M unit :=
  emit (Log INFO fmt arg).
Definition LOG_warning (fmt : string) (arg : LogArg) : M unit :=
  emit (Log WARNING fmt arg).

(** ** The methods of [SafetyNet] *)

Definition init_callbacks : M unit :=
  modify (fun s =>
    set_vehicle
      (with_attribute_listeners
         (add_attribute_listener ("armed", CbArmed)
            (attribute_listeners (vehicle s)))
         (vehicle s)) s).

Definition enable_safety_net : M unit :=
  modify (fun s =>
    set_vehicle
      (with_location_listeners
         (add_attribute_listener ("global_relative_frame", CbLocation)
            (location_listeners (vehicle s)))
         (vehicle s)) s) ;;
  modify (fun s =>
    set_vehicle
      (with_attribute_listeners
         (add_attribute_listener ("mode", CbMode)
            (attribute_listeners (vehicle s)))
         (vehicle s)) s) ;;
  modify (set_enabled true).

Definition disable_safety_net : M unit :=
  modify (fun s =>
    set_vehicle
      (with_location_listeners
         (remove_attribute_listener ("global_relative_frame", CbLocation)
            (location_listeners (vehicle s)))
         (vehicle s)) s) ;;
  modify (fun s =>
    set_vehicle
      (with_attribute_listeners
         (remove_attribute_listener ("mode", CbMode)
            (attribute_listeners (vehicle s)))
         (vehicle s)) s) ;;
  modify (set_enabled false).

(** [SafetyNet.__init__(vehicle, safe_alt, safe_mode)]: the seven field
    assignments build the object, the rest of the body runs on it. *)
Definition __init__ (v : Vehicle) (safe_alt0 : Z) (safe_mode0 : string)
  : Out unit :=
  (init_callbacks ;;
   self <- get ;;
   (if armed (vehicle self) then enable_safety_net else ret tt) ;;
   self <- get ;;
   (if Qlt_bool (alt (vehicle self)) (inject_Z (safe_alt self))
    then modify (set_active true)
    else ret tt))
    (mkSafetyNet v safe_alt0 safe_mode0 false false 0 0).

Definition armed_callback (aval : bool) : M unit :=
  if aval then
    LOG_info "vehicle is armed" NoArg ;;
    enable_safety_net
  else
    LOG_info "vehicle is disarmed" NoArg ;;
    disable_safety_net.

Definition mode_callback (name : string) : M unit :=
  if existsb (String.eqb name) ["LAND"; "RTL"] then
    LOG_warning "disabling safety net for mode %s" (StrArg name) ;;
    modify (set_enabled false)
  else
    LOG_warning "enabling safety net for mode %s" (StrArg name) ;;
    modify (set_enabled true).

(** [location_callback]: [aval_alt] is [aval.alt], [now] is the value of
    [time.time()] read by the handler. *)
Definition location_callback (aval_alt now : Q) : M unit :=
  self <- get ;;
  if negb (enabled self) then ret tt
  else
    (if negb (Qeq_bool (last_alt self) 0) then
       let c_pos := aval_alt - last_alt self in
       let c_time := now - last_alt_time self in
       v <- truediv c_pos c_time ;;
       LOG_info "v: %f" (NumArg v)
     else ret tt) ;;
    modify (set_last_alt aval_alt) ;;
    modify (set_last_alt_time now) ;;
    self <- get ;;
    if active self then
      if Qgt_bool aval_alt (inject_Z (safe_alt self + 1)) then
        modify (set_active false) ;;
        LOG_warning "deactivated safety net @ %d meters" (NumArg aval_alt)
      else ret tt
    else
      if Qle_bool aval_alt (inject_Z (safe_alt self)) then
        emit (SetMode (safe_mode self)) ;;
        modify (set_active true) ;;
        LOG_warning "activated safety net @ %d meters" (NumArg aval_alt)
      else ret tt.

(** ** Event delivery *)

(** The attribute changes the vehicle link reports, with the value it
    passes to the listener; a location change also carries the clock
    value the handler reads. *)
Inductive Event : Type :=
| ArmedChanged (aval : bool)
| ModeChanged (name : string)
| LocationChanged (aval_alt now : Q).

Definition handle (ev : Event) : M unit :=
  match ev with
  | ArmedChanged aval => armed_callback aval
  | ModeChanged name => mode_callback name
  | LocationChanged aval_alt now => location_callback aval_alt now
  end.

(** One callback at a time, in order.  A callback that raises leaves the
    object as it was at the raise, and the next event is delivered to that
    object.  Any event may follow any other, which covers deliveries to a
    listener that was removed in the meantime. *)
Fixpoint run (evs : list Event) (s : SafetyNet) : SafetyNet * list Effect :=
  match evs with
  | [] => (s, [])
  | ev :: rest =>
      let o := handle ev s in
      let r := run rest (final o) in
      (fst r, (trace o ++ snd r)%list)
  end.

(** The mode-override commands in a trace. *)
Fixpoint commands (tr : list Effect) : list string :=
  match tr with
  | [] => []
  | SetMode m :: rest => m :: commands rest
  | Log _ _ _ :: rest => commands rest
  end.

(** The log record of the vertical-rate diagnostic. *)
Definition is_rate_log (e : Effect) : bool :=
  match e with
  | Log INFO fmt (NumArg _) => String.eqb fmt "v: %f"
  | _ => false
  end.

Definition with_armed (b : bool) (v : Vehicle) : Vehicle :=
  mkVehicle b (alt v) (attribute_listeners v) (location_listeners v).

Definition is_location (ev : Event) : bool :=
  match ev with
  | LocationChanged _ _ => true
  | _ => false
  end.

(** The value the hysteresis test at the end of [location_callback]
    leaves in [active]; used to state what a completed call does. *)
Definition active_after (aval_alt : Q) (s : SafetyNet) : bool :=
  if active s then negb (Qgt_bool aval_alt (inject_Z (safe_alt s + 1)))
  else Qle_bool aval_alt (inject_Z (safe_alt s)).

(** ** Concrete vehicles and monitors used in the examples *)

Definition vehicle_disarmed_50 : Vehicle := mkVehicle false 50 [] [].
Definition vehicle_armed_5 : Vehicle := mkVehicle true 5 [] [].

(** A monitor that is enabled and not triggered, no reading stored yet. *)
Definition net_watching : SafetyNet :=
  mkSafetyNet vehicle_disarmed_50 10 "BRAKE" false true 0 0.

(** A monitor that is triggered and then put in RTL: not enabled. *)
Definition net_triggered_rtl : SafetyNet :=
  mkSafetyNet vehicle_armed_5 10 "BRAKE" true false 5 100.

(** A monitor that is enabled and triggered. *)
Definition net_triggered : SafetyNet :=
  mkSafetyNet vehicle_armed_5 10 "BRAKE" true true 5 100.

(** A monitor that is enabled, not triggered, with a reading of 12 m
    stored at clock value 100. *)
Definition net_descending : SafetyNet :=
  mkSafetyNet vehicle_disarmed_50 10 "BRAKE" false true 12 100.

(** A vehicle armed exactly at the threshold altitude of 10 m. *)
Definition vehicle_armed_10 : Vehicle := mkVehicle true 10 [] [].

(** The two observers [enable_safety_net] registers. *)
Definition location_listener : Listener :=
  ("global_relative_frame", CbLocation).
Definition mode_listener : Listener := ("mode", CbMode).
Definition armed_listener : Listener := ("armed", CbArmed).

(** The vehicle after the two registrations of [enable_safety_net], and
    after the two removals of [disable_safety_net]. *)
Definition enabled_vehicle (v : Vehicle) : Vehicle :=
  with_attribute_listeners
    (add_attribute_listener mode_listener (attribute_listeners v))
    (with_location_listeners
       (add_attribute_listener location_listener (location_listeners v)) v).

Definition disabled_vehicle (v : Vehicle) : Vehicle :=
  with_attribute_listeners
    (remove_attribute_listener mode_listener (attribute_listeners v))
    (with_location_listeners
       (remove_attribute_listener location_listener (location_listeners v))
       v).

(** ** Unfolding a method body *)

Ltac unfold_method :=
  unfold handle, armed_callback, mode_callback, location_callback,
    enable_safety_net, disable_safety_net, init_callbacks,
    LOG_info, LOG_warning, truediv, bind, ret, get, modify, emit, raise.

Ltac step_method :=
  cbn -[Qle_bool Qeq_bool Qminus Qdiv Qplus inject_Z Z.add String.eqb existsb].

Ltac split_tests :=
  repeat match goal with
    | |- context [if ?b then _ else _] =>
        let E := fresh "E" in destruct b eqn:E; step_method
    end.

(** ** Facts shared by the properties below *)

Lemma Qgt_bool_lt (x y : Q) : Qgt_bool x y = true -> y < x.
Proof.
  unfold Qgt_bool, Qlt_bool. intros H.
  apply negb_true_iff in H.
  destruct (Qlt_le_dec y x) as [Hlt | Hle]; [exact Hlt |].
  apply Qle_bool_iff in Hle. congruence.
Qed.

Lemma lt_Qgt_bool (x y : Q) : y < x -> Qgt_bool x y = true.
Proof.
  unfold Qgt_bool, Qlt_bool. intros H.
  apply negb_true_iff. destruct (Qle_bool x y) eqn:E; [| reflexivity].
  apply Qle_bool_iff in E. exfalso. exact (Qlt_not_le _ _ H E).
Qed.

(** No handler assigns [safe_alt] or [safe_mode]. *)
Lemma handle_safe_alt (ev : Event) (s : SafetyNet) :
  safe_alt (final (handle ev s)) = safe_alt s.
Proof.
  destruct ev; unfold_method; step_method; split_tests; reflexivity.
Qed.

Lemma run_safe_alt (evs : list Event) (s : SafetyNet) :
  safe_alt (fst (run evs s)) = safe_alt s.
Proof.
  revert s. induction evs as [| ev rest IH]; intros s; simpl.
  - reflexivity.
  - rewrite IH. apply handle_safe_alt.
Qed.

(** A location event delivered while [enabled] is false does nothing. *)
Lemma location_callback_disabled (s : SafetyNet) (aval_alt now : Q) :
  enabled s = false ->
  location_callback aval_alt now s = mkOut (Ret tt) s [].
Proof.
  intros H. unfold_method. step_method. rewrite H. reflexivity.
Qed.

(** The only way [active] goes from false to true in a handler. *)
Lemma handle_activation (ev : Event) (s : SafetyNet) :
  active s = false ->
  active (final (handle ev s)) = true ->
  exists aval_alt now,
    ev = LocationChanged aval_alt now /\
    enabled s = true /\
    aval_alt <= inject_Z (safe_alt s) /\
    commands (trace (handle ev s)) = [safe_mode s].
Proof.
  intros Hs. destruct ev as [aval | name | aval_alt now].
  - unfold_method; step_method; split_tests; congruence.
  - unfold_method; step_method; split_tests; congruence.
  - intros H. exists aval_alt, now. revert H.
    destruct s as [v sa sm act en la lt]; cbn in Hs; subst act.
    unfold_method; step_method.
    destruct en; step_method; [| discriminate].
    split_tests; intros H; try discriminate;
      (repeat split; apply Qle_bool_iff; assumption).
Qed.

(** A handler issues the command only together with that transition. *)
Lemma handle_commands (ev : Event) (s : SafetyNet) :
  commands (trace (handle ev s)) <> [] ->
  active s = false /\ active (final (handle ev s)) = true.
Proof.
  destruct s as [v sa sm act en la lt].
  destruct ev as [aval | name | aval_alt now];
    unfold_method; step_method; split_tests; intros H;
    try (exfalso; apply H; reflexivity);
    split; reflexivity.
Qed.

(** The only way [active] goes from true to false in a handler. *)
Lemma handle_deactivation (ev : Event) (s : SafetyNet) :
  active s = true ->
  active (final (handle ev s)) = false ->
  exists aval_alt now,
    ev = LocationChanged aval_alt now /\
    enabled s = true /\
    inject_Z (safe_alt s + 1) < aval_alt.
Proof.
  intros Hs. destruct ev as [aval | name | aval_alt now].
  - unfold_method; step_method; split_tests; congruence.
  - unfold_method; step_method; split_tests; congruence.
  - intros H. exists aval_alt, now. revert H.
    destruct s as [v sa sm act en la lt]; cbn in Hs; subst act.
    unfold_method; step_method.
    destruct en; step_method; [| discriminate].
    split_tests; intros H; try discriminate;
      (repeat split; apply Qgt_bool_lt; assumption).
Qed.

Lemma Qeq_bool_false (x y : Q) : ~ x == y -> Qeq_bool x y = false.
Proof.
  intros H. destruct (Qeq_bool x y) eqn:E; [| reflexivity].
  exfalso. apply H. apply Qeq_bool_iff. exact E.
Qed.

Lemma elapsed_zero (now t : Q) : now == t -> Qeq_bool (now - t) 0 = true.
Proof.
  intros H. apply Qeq_bool_iff. rewrite H. unfold Qminus.
  apply Qplus_opp_r.
Qed.

Lemma elapsed_nonzero (now t : Q) : ~ now == t -> Qeq_bool (now - t) 0 = false.
Proof.
  intros H. apply Qeq_bool_false. intros E. apply H.
  rewrite <- (Qplus_0_l t). rewrite <- E. unfold Qminus.
  rewrite <- Qplus_assoc. rewrite (Qplus_comm (- t) t).
  rewrite Qplus_opp_r. rewrite Qplus_0_r. reflexivity.
Qed.

(** What a location event does when the handler runs to its end: either
    no reading is stored yet ([last_alt] is 0) or the clock has moved. *)
Lemma location_callback_completes (s : SafetyNet) (aval_alt now : Q) :
  enabled s = true ->
  last_alt s == 0 \/ ~ now == last_alt_time s ->
  let o := location_callback aval_alt now s in
  result o = Ret tt /\
  final o = set_active (active_after aval_alt s)
              (set_last_alt_time now (set_last_alt aval_alt s)) /\
  commands (trace o)
    = if negb (active s) && Qle_bool aval_alt (inject_Z (safe_alt s))
      then [safe_mode s] else [].
Proof.
  destruct s as [v sa sm act en la lt]. cbn [enabled last_alt last_alt_time].
  intros Hen Hok. subst en. unfold active_after.
  unfold_method; step_method.
  destruct (Qeq_bool la 0) eqn:Ela; step_method.
  - destruct act; step_method; split_tests; repeat split; reflexivity.
  - assert (Hne : Qeq_bool (now - lt) 0 = false).
    { destruct Hok as [H0 | Hclock].
      - apply Qeq_bool_iff in H0. congruence.
      - apply elapsed_nonzero; assumption. }
    rewrite Hne. step_method.
    destruct act; step_method; split_tests; repeat split; reflexivity.
Qed.

(** Events other than location events do not assign [last_alt]. *)
Lemma handle_last_alt (ev : Event) (s : SafetyNet) :
  is_location ev = false ->
  last_alt (final (handle ev s)) = last_alt s.
Proof.
  destruct ev; intros H; try discriminate;
    unfold_method; step_method; split_tests; reflexivity.
Qed.

Lemma run_last_alt (evs : list Event) (s : SafetyNet) :
  forallb (fun ev => negb (is_location ev)) evs = true ->
  last_alt (fst (run evs s)) = last_alt s.
Proof.
  revert s. induction evs as [| ev rest IH]; intros s H; simpl in *.
  - reflexivity.
  - apply andb_true_iff in H. destruct H as [Hev Hrest].
    rewrite (IH _ Hrest). apply handle_last_alt.
    now apply negb_true_iff in Hev.
Qed.

(** What [enable_safety_net] and [disable_safety_net] return. *)
Lemma enable_safety_net_eq (s : SafetyNet) :
  enable_safety_net s
  = mkOut (Ret tt)
      (set_enabled true (set_vehicle (enabled_vehicle (vehicle s)) s)) [].
Proof. reflexivity. Qed.

Lemma disable_safety_net_eq (s : SafetyNet) :
  disable_safety_net s
  = mkOut (Ret tt)
      (set_enabled false (set_vehicle (disabled_vehicle (vehicle s)) s)) [].
Proof. reflexivity. Qed.

Lemma armed_callback_final (aval : bool) (s : SafetyNet) :
  final (armed_callback aval s)
  = if aval
    then set_enabled true (set_vehicle (enabled_vehicle (vehicle s)) s)
    else set_enabled false (set_vehicle (disabled_vehicle (vehicle s)) s).
Proof. destruct aval; reflexivity. Qed.

(** What construction returns. *)
Lemma init_eq (v : Vehicle) (safe_alt0 : Z) (safe_mode0 : string) :
  __init__ v safe_alt0 safe_mode0
  = mkOut (Ret tt)
      (let v1 := with_attribute_listeners
                   (add_attribute_listener armed_listener
                      (attribute_listeners v)) v in
       mkSafetyNet (if armed v then enabled_vehicle v1 else v1)
         safe_alt0 safe_mode0
         (Qlt_bool (alt v) (inject_Z safe_alt0)) (armed v) 0 0)
      [].
Proof.
  destruct v as [ar al ls lls]. unfold __init__.
  destruct ar; lazy -[Qle_bool inject_Z add_attribute_listener];
    destruct (Qle_bool (inject_Z safe_alt0) al); reflexivity.
Qed.

Lemma init_final (v : Vehicle) (safe_alt0 : Z) (safe_mode0 : string) :
  final (__init__ v safe_alt0 safe_mode0)
  = let v1 := with_attribute_listeners
                (add_attribute_listener armed_listener
                   (attribute_listeners v)) v in
    mkSafetyNet (if armed v then enabled_vehicle v1 else v1)
      safe_alt0 safe_mode0
      (Qlt_bool (alt v) (inject_Z safe_alt0)) (armed v) 0 0.
Proof.
  rewrite init_eq. reflexivity.
Qed.

(** The fields of a freshly constructed monitor. *)
Lemma init_fields (v : Vehicle) (safe_alt0 : Z) (safe_mode0 : string) :
  let s := final (__init__ v safe_alt0 safe_mode0) in
  enabled s = armed v /\
  active s = Qlt_bool (alt v) (inject_Z safe_alt0) /\
  last_alt s = 0 /\
  last_alt_time s = 0 /\
  safe_alt s = safe_alt0 /\
  safe_mode s = safe_mode0 /\
  armed (vehicle s) = armed v /\
  alt (vehicle s) = alt v.
Proof.
  cbv zeta. rewrite init_final. cbv zeta.
  cbn [enabled active last_alt last_alt_time safe_alt safe_mode vehicle].
  destruct v as [ar al ls lls]. destruct ar; repeat split; reflexivity.
Qed.

(** A completed location event stores its reading. *)
Lemma location_callback_stores (s : SafetyNet) (aval_alt now : Q) :
  enabled s = true ->
  result (location_callback aval_alt now s) = Ret tt ->
  last_alt (final (location_callback aval_alt now s)) = aval_alt /\
  last_alt_time (final (location_callback aval_alt now s)) = now.
Proof.
  destruct s as [v sa sm act en la lt]. cbn [enabled].
  intros Hen. subst en.
  unfold_method; step_method.
  destruct (Qeq_bool la 0); step_method;
    [| destruct (Qeq_bool (now - lt) 0); step_method;
       [intros H; discriminate H |] ];
    intros _; destruct act; step_method; split_tests; split; reflexivity.
Qed.

(** With no reading stored the rate block is skipped: the handler returns
    normally and logs no rate. *)
Lemma rate_skipped_without_sample (s : SafetyNet) (aval_alt now : Q) :
  last_alt s == 0 ->
  result (location_callback aval_alt now s) = Ret tt /\
  existsb is_rate_log (trace (location_callback aval_alt now s)) = false.
Proof.
  destruct s as [v sa sm act en la lt]. cbn [last_alt].
  intros H0. apply Qeq_bool_iff in H0.
  unfold_method; step_method.
  destruct en; step_method; [| split; reflexivity].
  rewrite H0. step_method.
  destruct act; step_method; split_tests; split; reflexivity.
Qed.

(** With a reading stored and the clock moved, the rate is the first
    record logged and the only rate logged. *)
Lemma rate_logged_with_sample (s : SafetyNet) (aval_alt now : Q) :
  enabled s = true ->
  ~ last_alt s == 0 ->
  ~ now == last_alt_time s ->
  result (location_callback aval_alt now s) = Ret tt /\
  exists rest,
    trace (location_callback aval_alt now s)
    = Log INFO "v: %f"
        (NumArg ((aval_alt - last_alt s) / (now - last_alt_time s)))
      :: rest /\
    existsb is_rate_log rest = false.
Proof.
  destruct s as [v sa sm act en la lt].
  cbn [enabled last_alt last_alt_time].
  intros Hen Hla Hclock. subst en.
  unfold_method; step_method.
  rewrite (Qeq_bool_false _ _ Hla). step_method.
  rewrite (elapsed_nonzero _ _ Hclock). step_method.
  destruct act; step_method; split_tests;
    (split; [reflexivity | eexists; split; reflexivity]).
Qed.

(** The first event of a run that clears [active]. *)
Lemma run_deactivation (evs : list Event) :
  forall s : SafetyNet,
    active s = true ->
    active (fst (run evs s)) = false ->
    exists pre aval_alt now post,
      evs = (pre ++ LocationChanged aval_alt now :: post)%list /\
      active (fst (run pre s)) = true /\
      enabled (fst (run pre s)) = true /\
      inject_Z (safe_alt s + 1) < aval_alt.
Proof.
  induction evs as [| ev rest IH]; intros s Hs Hend.
  - simpl in Hend. congruence.
  - simpl in Hend.
    destruct (active (final (handle ev s))) eqn:Hev.
    + destruct (IH _ Hev Hend) as (pre & a & n & post & Heq & Hact & Hen & Hlt).
      exists (ev :: pre), a, n, post. simpl.
      rewrite handle_safe_alt in Hlt.
      repeat split; try assumption. now rewrite Heq.
    + destruct (handle_deactivation ev s Hs Hev) as (a & n & Heq & Hen & Hlt).
      exists [], a, n, rest. simpl. subst ev. repeat split; assumption.
Qed.

(** ** The properties *)

(** C1.  In any state of the monitor whose [enabled] field is false, a
    location event of any altitude returns at once: the object is
    unchanged and nothing is sent out, so no assignment to [vehicle.mode]
    is made.  In particular a mode change to "RTL" leaves [enabled] false
    and [active] as it was, and an altitude event at 5 m delivered after it
    sends nothing out and leaves [active] as it was. *)
Theorem no_command_while_disabled (s : SafetyNet) (aval_alt now : Q) :
  (enabled s = false ->
   location_callback aval_alt now s = mkOut (Ret tt) s [] /\
   commands (trace (handle (LocationChanged aval_alt now) s)) = []) /\
  (let s1 := final (mode_callback "RTL" s) in
   enabled s1 = false /\
   active s1 = active s /\
   location_callback 5 now s1 = mkOut (Ret tt) s1 [] /\
   active (final (location_callback 5 now s1)) = active s).
Proof.
  split.
  - intros H. simpl handle.
    rewrite (location_callback_disabled s aval_alt now H).
    split; reflexivity.
  - assert (Hen : enabled (final (mode_callback "RTL" s)) = false)
      by reflexivity.
    assert (Hact : active (final (mode_callback "RTL" s)) = active s)
      by reflexivity.
    cbv zeta.
    rewrite (location_callback_disabled _ 5 now Hen).
    repeat split; assumption.
Qed.

Lemma no_command_while_disabled_witness :
  enabled net_triggered_rtl = false /\
  location_callback 5 101 net_triggered_rtl
    = mkOut (Ret tt) net_triggered_rtl [] /\
  commands (trace (handle (LocationChanged 5 101) net_triggered_rtl)) = [].
Proof.
  split; [reflexivity |].
  apply (proj1 (no_command_while_disabled net_triggered_rtl 5 101)).
  reflexivity.
Defined.

(** C2.  In every handler invocation, if [active] is false before and true
    after, then the event is a location event, [enabled] was true, the
    altitude is at most [safe_alt], and the handler assigned [safe_mode]
    to [vehicle.mode] exactly once; and a handler that assigns to
    [vehicle.mode] at all makes exactly that transition. *)
Theorem activation_only_when_enabled_and_low (s : SafetyNet) (ev : Event) :
  (active s = false ->
   active (final (handle ev s)) = true ->
   exists aval_alt now,
     ev = LocationChanged aval_alt now /\
     enabled s = true /\
     aval_alt <= inject_Z (safe_alt s) /\
     commands (trace (handle ev s)) = [safe_mode s]) /\
  (commands (trace (handle ev s)) <> [] ->
   active s = false /\ active (final (handle ev s)) = true).
Proof.
  split.
  - apply handle_activation.
  - apply handle_commands.
Qed.

Lemma activation_only_when_enabled_and_low_witness :
  active net_watching = false /\
  active (final (handle (LocationChanged 8 1) net_watching)) = true /\
  exists aval_alt now,
    LocationChanged 8 1 = LocationChanged aval_alt now /\
    enabled net_watching = true /\
    aval_alt <= inject_Z (safe_alt net_watching) /\
    commands (trace (handle (LocationChanged 8 1) net_watching))
      = [safe_mode net_watching].
Proof.
  split; [reflexivity |]. split; [reflexivity |].
  apply (proj1 (activation_only_when_enabled_and_low
                  net_watching (LocationChanged 8 1)));
    reflexivity.
Defined.

(** C3.  Starting from a state with [active] true, if [active] is false
    after a sequence of events, then the sequence contains a location
    event with altitude strictly above [safe_alt + 1] that was processed
    while [enabled] and [active] were true.  Event by event: an event that
    is not such a location event (an armed-state change, a mode change, a
    location event while not enabled, a location event at or below
    [safe_alt + 1]) leaves [active] true. *)
Theorem active_remains_until_above_band
  (s : SafetyNet) (evs : list Event) :
  active s = true ->
  (active (fst (run evs s)) = false ->
   exists pre aval_alt now post,
     evs = (pre ++ LocationChanged aval_alt now :: post)%list /\
     active (fst (run pre s)) = true /\
     enabled (fst (run pre s)) = true /\
     inject_Z (safe_alt s + 1) < aval_alt) /\
  (forall ev : Event,
     (forall aval_alt now,
        ev = LocationChanged aval_alt now ->
        enabled s = true ->
        aval_alt <= inject_Z (safe_alt s + 1)) ->
     active (final (handle ev s)) = true).
Proof.
  intros Hs. split.
  - apply run_deactivation; assumption.
  - intros ev Hev.
    destruct (active (final (handle ev s))) eqn:E; [reflexivity |].
    destruct (handle_deactivation ev s Hs E) as (a & n & Heq & Hen & Hlt).
    exfalso. exact (Qlt_not_le _ _ Hlt (Hev a n Heq Hen)).
Qed.

Lemma active_remains_until_above_band_witness :
  active net_triggered = true /\
  active (fst (run [ModeChanged "LOITER"; LocationChanged 12 101]
                   net_triggered)) = false /\
  exists pre aval_alt now post,
    [ModeChanged "LOITER"; LocationChanged 12 101]
      = (pre ++ LocationChanged aval_alt now :: post)%list /\
    active (fst (run pre net_triggered)) = true /\
    enabled (fst (run pre net_triggered)) = true /\
    inject_Z (safe_alt net_triggered + 1) < aval_alt.
Proof.
  split; [reflexivity |]. split; [reflexivity |].
  apply (proj1 (active_remains_until_above_band net_triggered
                  [ModeChanged "LOITER"; LocationChanged 12 101]
                  eq_refl)).
  reflexivity.
Defined.

(** C4.  If a handler issues the mode-override command at event [e1] and
    a handler issues it again at a later event [e2], then among the events
    delivered in between there is a location event with altitude strictly
    above [safe_alt + 1].  This holds for every sequence of events in
    between, so also for altitude readings taken while [enabled] stays
    true. *)
Theorem at_most_one_command_per_excursion
  (s : SafetyNet) (e1 e2 : Event) (between : list Event) :
  commands (trace (handle e1 s)) <> [] ->
  commands (trace (handle e2 (fst (run (e1 :: between) s)))) <> [] ->
  exists aval_alt now,
    In (LocationChanged aval_alt now) between /\
    inject_Z (safe_alt s + 1) < aval_alt.
Proof.
  intros H1 H2.
  apply handle_commands in H1. destruct H1 as [_ Hon].
  apply handle_commands in H2. destruct H2 as [Hoff _].
  simpl in Hoff.
  destruct (run_deactivation between _ Hon Hoff)
    as (pre & a & n & post & Heq & _ & _ & Hlt).
  rewrite handle_safe_alt in Hlt.
  exists a, n. split; [| assumption].
  rewrite Heq. apply in_or_app. right. left. reflexivity.
Qed.

Lemma at_most_one_command_per_excursion_witness :
  commands (trace (handle (LocationChanged 8 1) net_watching)) <> [] /\
  commands (trace (handle (LocationChanged 9 3)
     (fst (run [LocationChanged 8 1; LocationChanged (25 # 2) 2]
               net_watching)))) <> [] /\
  exists aval_alt now,
    In (LocationChanged aval_alt now) [LocationChanged (25 # 2) 2] /\
    inject_Z (safe_alt net_watching + 1) < aval_alt.
Proof.
  assert (H1 : commands (trace (handle (LocationChanged 8 1) net_watching))
               <> []) by (vm_compute; discriminate).
  assert (H2 : commands (trace (handle (LocationChanged 9 3)
     (fst (run [LocationChanged 8 1; LocationChanged (25 # 2) 2]
               net_watching)))) <> []) by (vm_compute; discriminate).
  split; [exact H1 |]. split; [exact H2 |].
  exact (at_most_one_command_per_excursion net_watching
           (LocationChanged 8 1) (LocationChanged 9 3)
           [LocationChanged (25 # 2) 2] H1 H2).
Defined.

(** C5.  What the code does where the claim says the computation is
    skipped: with a stored altitude other than zero and a clock value equal
    to the stored one, the handler performs [c_pos/c_time] with
    [c_time = 0]; [ZeroDivisionError] leaves the handler, before the
    reading is stored and before the hysteresis test, so nothing is sent
    out and the object is unchanged. *)
Theorem zero_elapsed_time_raises (s : SafetyNet) (aval_alt now : Q) :
  enabled s = true ->
  ~ last_alt s == 0 ->
  now == last_alt_time s ->
  location_callback aval_alt now s = mkOut (Raise ZeroDivisionError) s [].
Proof.
  destruct s as [v sa sm act en la lt].
  cbn [enabled last_alt last_alt_time].
  intros Hen Hla Hnow. subst en.
  unfold_method; step_method.
  rewrite (Qeq_bool_false _ _ Hla). step_method.
  rewrite (elapsed_zero _ _ Hnow). reflexivity.
Qed.

Lemma zero_elapsed_time_raises_witness :
  enabled net_descending = true /\
  ~ last_alt net_descending == 0 /\
  100 == last_alt_time net_descending /\
  location_callback 8 100 net_descending
    = mkOut (Raise ZeroDivisionError) net_descending [].
Proof.
  assert (Hla : ~ last_alt net_descending == 0)
    by (intros H; discriminate H).
  assert (Hnow : 100 == last_alt_time net_descending) by reflexivity.
  split; [reflexivity |]. split; [exact Hla |]. split; [exact Hnow |].
  exact (zero_elapsed_time_raises net_descending 8 100 eq_refl Hla Hnow).
Defined.

(** C6, as the claim states it, fails: constructing the monitor with safe
    altitude 0 and an empty safe-mode identifier raises nothing and yields
    a monitor holding those values. *)
Lemma init_accepts_invalid_configuration :
  (0 <= 0)%Z /\
  result (__init__ vehicle_disarmed_50 0 "") = Ret tt /\
  safe_alt (final (__init__ vehicle_disarmed_50 0 "")) = 0%Z /\
  safe_mode (final (__init__ vehicle_disarmed_50 0 "")) = "" /\
  ~ (exists e, result (__init__ vehicle_disarmed_50 0 "") = Raise e).
Proof.
  split; [apply Z.le_refl |].
  split; [reflexivity |]. split; [reflexivity |]. split; [reflexivity |].
  intros [e H]. discriminate H.
Qed.

(** C6, amended.  Construction checks nothing about its configuration:
    for every vehicle, every safe altitude (positive or not) and every
    safe-mode identifier (empty or not) it returns normally, sends nothing
    out and stores the two values as given. *)
Theorem init_never_rejects_configuration
  (v : Vehicle) (safe_alt0 : Z) (safe_mode0 : string) :
  result (__init__ v safe_alt0 safe_mode0) = Ret tt /\
  trace (__init__ v safe_alt0 safe_mode0) = [] /\
  safe_alt (final (__init__ v safe_alt0 safe_mode0)) = safe_alt0 /\
  safe_mode (final (__init__ v safe_alt0 safe_mode0)) = safe_mode0.
Proof.
  rewrite init_eq. cbv zeta. repeat split; reflexivity.
Qed.

(** C7, as the claim states it, fails at the altitude event at 12: 12 is
    strictly above [safe_alt + 1 = 11], so that event clears [active]; the
    event at 12.5 then finds [active] already false. *)
Lemma scenario_1_reading_12_clears_active :
  let s3 := fst (run [ArmedChanged true; LocationChanged 8 1;
                      LocationChanged 7 2]
                     (final (__init__ vehicle_disarmed_50 10 "BRAKE"))) in
  let s4 := final (handle (LocationChanged 12 3) s3) in
  active s3 = true /\
  active s4 = false /\
  s4 <> s3 /\
  trace (handle (LocationChanged 12 3) s3)
    = [Log INFO "v: %f" (NumArg 5);
       Log WARNING "deactivated safety net @ %d meters" (NumArg 12)].
Proof.
  cbv zeta. split; [reflexivity |]. split; [reflexivity |].
  split; [| reflexivity].
  intros H. apply (f_equal active) in H. vm_compute in H. discriminate H.
Qed.

Lemma clock_moved (t t' : Q) : t < t' -> ~ t' == t.
Proof.
  intros Hlt E. apply (Qlt_not_eq _ _ Hlt). symmetry. exact E.
Qed.

(** C7, amended.  With [safe_alt = 10], a vehicle disarmed at 50 m and
    readings taken at strictly increasing clock values: construction
    leaves [active] and [enabled] false; arming sets [enabled]; the
    reading 8 issues the command [BRAKE] and sets [active]; the reading 7
    issues no command; the reading 12 clears [active] and issues no
    command; the reading 12.5 changes neither [active] nor issues a
    command. *)
Theorem scenario_1 (t1 t2 t3 t4 : Q) :
  t1 < t2 -> t2 < t3 -> t3 < t4 ->
  let s0 := final (__init__ vehicle_disarmed_50 10 "BRAKE") in
  let o1 := armed_callback true s0 in
  let o2 := location_callback 8 t1 (final o1) in
  let o3 := location_callback 7 t2 (final o2) in
  let o4 := location_callback 12 t3 (final o3) in
  let o5 := location_callback (25 # 2) t4 (final o4) in
  (active s0 = false /\ enabled s0 = false) /\
  (enabled (final o1) = true /\ commands (trace o1) = []) /\
  (result o2 = Ret tt /\ commands (trace o2) = ["BRAKE"] /\
   active (final o2) = true) /\
  (result o3 = Ret tt /\ commands (trace o3) = [] /\
   active (final o3) = true) /\
  (result o4 = Ret tt /\ commands (trace o4) = [] /\
   active (final o4) = false) /\
  (result o5 = Ret tt /\ commands (trace o5) = [] /\
   active (final o5) = false).
Proof.
  intros H12 H23 H34. cbv zeta.
  assert (E1 : armed_callback true
                 (final (__init__ vehicle_disarmed_50 10 "BRAKE"))
               = mkOut (Ret tt)
                   (mkSafetyNet
                      (mkVehicle false 50 [armed_listener; mode_listener]
                         [location_listener])
                      10 "BRAKE" false true 0 0)
                   [Log INFO "vehicle is armed" NoArg])
    by (vm_compute; reflexivity).
  rewrite E1. cbn [final trace result].
  set (v1 := mkVehicle false 50 [armed_listener; mode_listener]
               [location_listener]).
  assert (H0 : (0 : Q) == 0) by reflexivity.
  destruct (location_callback_completes
              (mkSafetyNet v1 10 "BRAKE" false true 0 0) 8 t1
              eq_refl (or_introl H0)) as (R2 & F2 & C2).
  assert (F2' : final (location_callback 8 t1
                         (mkSafetyNet v1 10 "BRAKE" false true 0 0))
                = mkSafetyNet v1 10 "BRAKE" true true 8 t1)
    by (rewrite F2; reflexivity).
  rewrite F2'.
  destruct (location_callback_completes
              (mkSafetyNet v1 10 "BRAKE" true true 8 t1) 7 t2
              eq_refl (or_intror (clock_moved _ _ H12))) as (R3 & F3 & C3).
  assert (F3' : final (location_callback 7 t2
                         (mkSafetyNet v1 10 "BRAKE" true true 8 t1))
                = mkSafetyNet v1 10 "BRAKE" true true 7 t2)
    by (rewrite F3; reflexivity).
  rewrite F3'.
  destruct (location_callback_completes
              (mkSafetyNet v1 10 "BRAKE" true true 7 t2) 12 t3
              eq_refl (or_intror (clock_moved _ _ H23))) as (R4 & F4 & C4).
  assert (F4' : final (location_callback 12 t3
                         (mkSafetyNet v1 10 "BRAKE" true true 7 t2))
                = mkSafetyNet v1 10 "BRAKE" false true 12 t3)
    by (rewrite F4; reflexivity).
  rewrite F4'.
  destruct (location_callback_completes
              (mkSafetyNet v1 10 "BRAKE" false true 12 t3) (25 # 2) t4
              eq_refl (or_intror (clock_moved _ _ H34))) as (R5 & F5 & C5).
  assert (F5' : final (location_callback (25 # 2) t4
                         (mkSafetyNet v1 10 "BRAKE" false true 12 t3))
                = mkSafetyNet v1 10 "BRAKE" false true (25 # 2) t4)
    by (rewrite F5; reflexivity).
  rewrite F5'.
  rewrite R2, R3, R4, R5, C2, C3, C4, C5.
  repeat split; reflexivity.
Qed.

Lemma scenario_1_witness :
  1 < 2 /\ 2 < 3 /\ 3 < 4 /\
  active (final (location_callback 12 3
    (fst (run [ArmedChanged true; LocationChanged 8 1; LocationChanged 7 2]
              (final (__init__ vehicle_disarmed_50 10 "BRAKE")))))) = false.
Proof.
  assert (H12 : 1 < 2) by reflexivity.
  assert (H23 : 2 < 3) by reflexivity.
  assert (H34 : 3 < 4) by reflexivity.
  split; [exact H12 |]. split; [exact H23 |]. split; [exact H34 |].
  exact (proj2 (proj2 (proj1 (proj2 (proj2 (proj2 (proj2
    (scenario_1 1 2 3 4 H12 H23 H34)))))))).
Defined.

(** C8.  With [safe_alt = 10], constructing the monitor on a vehicle that
    is armed at altitude 5 returns normally with [active] and [enabled]
    both true and sends nothing out, so no assignment to [vehicle.mode] is
    made during construction.  A handler that does assign to
    [vehicle.mode] is the location handler, on the transition of [active]
    from false to true. *)
Theorem boot_below_threshold_sets_active_without_command
  (v : Vehicle) (safe_mode0 : string) :
  armed v = true ->
  alt v == 5 ->
  let o := __init__ v 10 safe_mode0 in
  result o = Ret tt /\
  active (final o) = true /\
  enabled (final o) = true /\
  trace o = [] /\
  (forall (s : SafetyNet) (ev : Event),
     commands (trace (handle ev s)) <> [] ->
     exists aval_alt now,
       ev = LocationChanged aval_alt now /\
       active s = false /\
       active (final (handle ev s)) = true).
Proof.
  intros Har Hal. cbv zeta.
  assert (Hlow : Qlt_bool (alt v) (inject_Z 10) = true).
  { unfold Qlt_bool. apply negb_true_iff.
    destruct (Qle_bool (inject_Z 10) (alt v)) eqn:E; [| reflexivity].
    apply Qle_bool_iff in E. rewrite Hal in E.
    exfalso. apply (Qlt_not_le 5 (inject_Z 10)); [reflexivity | exact E]. }
  rewrite init_eq. cbv zeta. cbn [result final trace active enabled].
  rewrite Har, Hlow. repeat split.
  intros s ev Hcmd.
  destruct (handle_commands ev s Hcmd) as [Hoff Hon].
  destruct (handle_activation ev s Hoff Hon) as (a & n & Heq & _).
  exists a, n. repeat split; assumption.
Qed.

Lemma boot_below_threshold_sets_active_without_command_witness :
  armed vehicle_armed_5 = true /\
  alt vehicle_armed_5 == 5 /\
  active (final (__init__ vehicle_armed_5 10 "BRAKE")) = true /\
  trace (__init__ vehicle_armed_5 10 "BRAKE") = [].
Proof.
  assert (Hal : alt vehicle_armed_5 == 5) by reflexivity.
  split; [reflexivity |]. split; [exact Hal |].
  pose proof (boot_below_threshold_sets_active_without_command
                vehicle_armed_5 "BRAKE" eq_refl Hal) as H.
  cbv zeta in H.
  split; [exact (proj1 (proj2 H)) | exact (proj1 (proj2 (proj2 (proj2 H))))].
Defined.

(** C9.  The mode handler returns normally and leaves [enabled] false when
    the new mode's name is "LAND" or "RTL" and true for every other name.
    The value depends on the name alone: it is the same whatever
    [vehicle.armed] and the previous [enabled] and [active] are, and the
    handler changes no other field. *)
Theorem mode_callback_sets_enabled (s : SafetyNet) (name : string) :
  let o := mode_callback name s in
  result o = Ret tt /\
  (name = "LAND" \/ name = "RTL" -> enabled (final o) = false) /\
  (name <> "LAND" -> name <> "RTL" -> enabled (final o) = true) /\
  (forall (was_armed was_enabled was_active : bool),
     enabled (final (mode_callback name
        (set_vehicle (with_armed was_armed (vehicle s))
           (set_enabled was_enabled (set_active was_active s)))))
     = enabled (final o)) /\
  final o = set_enabled (enabled (final o)) s /\
  commands (trace o) = [].
Proof.
  cbv zeta. unfold_method. step_method. cbn [existsb].
  destruct (String.eqb_spec name "LAND") as [HL | HL];
    destruct (String.eqb_spec name "RTL") as [HR | HR];
    cbn [orb]; step_method;
    (split; [reflexivity |]);
    (split; [intros [H | H]; try reflexivity; contradiction |]);
    (split; [intros H1 H2; try reflexivity; contradiction |]);
    (split; [intros; reflexivity |]);
    split; reflexivity.
Qed.

Lemma mode_callback_sets_enabled_witness :
  enabled (final (mode_callback "RTL" net_triggered)) = false /\
  enabled (final (mode_callback "GUIDED" net_triggered_rtl)) = true.
Proof.
  split.
  - apply (proj1 (proj2 (mode_callback_sets_enabled net_triggered "RTL"))).
    right. reflexivity.
  - apply (proj1 (proj2 (proj2
             (mode_callback_sets_enabled net_triggered_rtl "GUIDED"))));
      intros H; discriminate H.
Defined.

(** C10, as the claim states it, fails: a reading of altitude 0 is not
    always followed by a skipped diagnostic.  With a reading of 12 m stored
    at clock value 100, the reading 0 at the same clock value raises in
    the rate block, although the stored altitude is not zero no rate is
    produced, and the reading is not stored; the next reading, 9 m at
    clock value 102, logs the rate. *)
Lemma reading_zero_then_rate_is_logged :
  enabled net_descending = true /\
  ~ last_alt net_descending == 0 /\
  result (location_callback 0 100 net_descending)
    = Raise ZeroDivisionError /\
  existsb is_rate_log (trace (location_callback 0 100 net_descending))
    = false /\
  existsb is_rate_log
    (trace (location_callback 9 102
              (final (location_callback 0 100 net_descending)))) = true.
Proof.
  split; [reflexivity |]. split; [intros H; discriminate H |].
  split; [reflexivity |]. split; reflexivity.
Qed.

(** C10, amended.  The stored altitude 0 is the "no previous sample"
    mark.  For a location event processed while [enabled] is true: if the
    stored [last_alt] is zero the handler returns normally and logs no
    rate; if it is not zero and the clock has moved since the stored
    reading, the handler returns normally and logs first the rate
    [(aval.alt - last_alt) / (now - last_alt_time)], and no other rate.
    So the diagnostic is skipped on the reading that follows a reading of
    altitude 0 that the handler processed to its end, as it is on the
    first reading after construction, whatever armed-state and mode
    events came before it. *)
Theorem stored_zero_altitude_skips_rate
  (s : SafetyNet) (aval_alt now : Q) :
  enabled s = true ->
  let o := location_callback aval_alt now s in
  (last_alt s == 0 ->
   result o = Ret tt /\ existsb is_rate_log (trace o) = false) /\
  (~ last_alt s == 0 ->
   ~ now == last_alt_time s ->
   result o = Ret tt /\
   exists rest,
     trace o
     = Log INFO "v: %f"
         (NumArg ((aval_alt - last_alt s) / (now - last_alt_time s)))
       :: rest /\
     existsb is_rate_log rest = false) /\
  (aval_alt == 0 ->
   result o = Ret tt ->
   forall next_alt next_now,
     let o' := location_callback next_alt next_now (final o) in
     result o' = Ret tt /\ existsb is_rate_log (trace o') = false) /\
  (forall (v : Vehicle) (safe_alt0 : Z) (safe_mode0 : string)
          (evs : list Event) (first_alt first_now : Q),
     forallb (fun ev => negb (is_location ev)) evs = true ->
     let o' := location_callback first_alt first_now
                 (fst (run evs (final (__init__ v safe_alt0 safe_mode0)))) in
     result o' = Ret tt /\ existsb is_rate_log (trace o') = false).
Proof.
  intros Hen. cbv zeta. split; [| split; [| split]].
  - apply rate_skipped_without_sample.
  - apply rate_logged_with_sample. exact Hen.
  - intros Hzero Hret next_alt next_now.
    apply rate_skipped_without_sample.
    destruct (location_callback_stores s aval_alt now Hen Hret) as [Hlast _].
    rewrite Hlast. exact Hzero.
  - intros v sa sm evs a n Hevs.
    apply rate_skipped_without_sample.
    rewrite (run_last_alt _ _ Hevs).
    destruct (init_fields v sa sm) as (_ & _ & Hla & _).
    rewrite Hla. reflexivity.
Qed.

Lemma stored_zero_altitude_skips_rate_witness :
  enabled net_descending = true /\
  0 == 0 /\
  result (location_callback 0 101 net_descending) = Ret tt /\
  (exists rest,
     trace (location_callback 0 101 net_descending)
     = Log INFO "v: %f"
         (NumArg ((0 - last_alt net_descending)
                  / (101 - last_alt_time net_descending)))
       :: rest /\
     existsb is_rate_log rest = false) /\
  existsb is_rate_log
    (trace (location_callback 9 102
              (final (location_callback 0 101 net_descending)))) = false.
Proof.
  assert (Hzero : (0 : Q) == 0) by reflexivity.
  assert (Hret : result (location_callback 0 101 net_descending) = Ret tt)
    by reflexivity.
  assert (Hla : ~ last_alt net_descending == 0)
    by (intros H; discriminate H).
  assert (Hclock : ~ 101 == last_alt_time net_descending)
    by (intros H; discriminate H).
  pose proof (stored_zero_altitude_skips_rate net_descending 0 101 eq_refl)
    as H.
  cbv zeta in H.
  split; [reflexivity |]. split; [exact Hzero |]. split; [exact Hret |].
  split.
  - exact (proj2 (proj1 (proj2 H) Hla Hclock)).
  - exact (proj2 (proj1 (proj2 (proj2 H)) Hzero Hret 9 102)).
Defined.

(** ** Further properties of the handlers and of construction *)

Lemma run_app (evs1 evs2 : list Event) :
  forall s : SafetyNet,
    run (evs1 ++ evs2) s
    = (fst (run evs2 (fst (run evs1 s))),
       (snd (run evs1 s) ++ snd (run evs2 (fst (run evs1 s))))%list).
Proof.
  induction evs1 as [| ev rest IH]; intros s; simpl.
  - destruct (run evs2 s); reflexivity.
  - rewrite IH. simpl. rewrite app_assoc. reflexivity.
Qed.

Lemma commands_app (tr1 tr2 : list Effect) :
  commands (tr1 ++ tr2) = (commands tr1 ++ commands tr2)%list.
Proof.
  induction tr1 as [| e rest IH]; simpl; [reflexivity |].
  destruct e; simpl; rewrite IH; reflexivity.
Qed.

Lemma handle_safe_mode (ev : Event) (s : SafetyNet) :
  safe_mode (final (handle ev s)) = safe_mode s.
Proof.
  destruct ev; unfold_method; step_method; split_tests; reflexivity.
Qed.

(** X1.  The armed handler returns normally and leaves [enabled] equal to
    the new armed value, whatever [enabled] and the mode were before; it
    issues no command and does not touch [active], the stored reading or
    the configuration. *)
Theorem armed_callback_sets_enabled (s : SafetyNet) (aval : bool) :
  let o := armed_callback aval s in
  result o = Ret tt /\
  enabled (final o) = aval /\
  active (final o) = active s /\
  last_alt (final o) = last_alt s /\
  last_alt_time (final o) = last_alt_time s /\
  safe_alt (final o) = safe_alt s /\
  safe_mode (final o) = safe_mode s /\
  commands (trace o) = [].
Proof.
  cbv zeta. destruct aval; unfold_method; step_method;
    repeat split; reflexivity.
Qed.

(** X2.  After any sequence of events, [enabled] is decided by the last
    armed-state or mode event alone: an armed-state event leaves the armed
    value, a mode event leaves false for "LAND"/"RTL" and true otherwise,
    and a location event leaves [enabled] as it was.  So a mode change to
    a mode other than "LAND"/"RTL" after a disarm enables monitoring
    again, and arming while in "RTL" enables it too. *)
Theorem enabled_follows_last_armed_or_mode_event
  (s : SafetyNet) (evs : list Event) (ev : Event) :
  enabled (fst (run (evs ++ [ev]) s))
  = match ev with
    | ArmedChanged aval => aval
    | ModeChanged name => negb (existsb (String.eqb name) ["LAND"; "RTL"])
    | LocationChanged _ _ => enabled (fst (run evs s))
    end.
Proof.
  rewrite run_app. cbn [fst run].
  set (s' := fst (run evs s)). clearbody s'.
  destruct ev as [aval | name | a n].
  - destruct aval; reflexivity.
  - unfold_method; step_method.
    destruct (existsb (String.eqb name) ["LAND"; "RTL"]); reflexivity.
  - destruct s' as [v sa sm act en la lt].
    unfold_method; step_method. split_tests; reflexivity.
Qed.

(** X3.  Construction leaves [enabled] equal to [vehicle.armed] and sets
    [active] exactly when the vehicle's altitude is strictly below
    [safe_alt]; no reading is stored ([last_alt] and [last_alt_time] are
    0). *)
Theorem init_reads_armed_and_altitude
  (v : Vehicle) (safe_alt0 : Z) (safe_mode0 : string) :
  let s := final (__init__ v safe_alt0 safe_mode0) in
  enabled s = armed v /\
  (active s = true <-> alt v < inject_Z safe_alt0) /\
  last_alt s = 0 /\
  last_alt_time s = 0.
Proof.
  destruct (init_fields v safe_alt0 safe_mode0)
    as (Hen & Hact & Hla & Hlt & _).
  cbv zeta. repeat split; try assumption.
  - rewrite Hact. intros H. apply (Qgt_bool_lt _ _ H).
  - rewrite Hact. intros H. apply (lt_Qgt_bool _ _ H).
Qed.

(** X4.  The boot test is strict ([<]) and the handler's test is not
    ([<=]): a monitor constructed on a vehicle armed exactly at
    [safe_alt] starts with [active] false, and the first reading at that
    same altitude issues the command and sets [active]. *)
Theorem boot_at_threshold_then_first_reading_commands
  (v : Vehicle) (safe_alt0 : Z) (safe_mode0 : string) (aval_alt now : Q) :
  armed v = true ->
  alt v == inject_Z safe_alt0 ->
  aval_alt == inject_Z safe_alt0 ->
  let s := final (__init__ v safe_alt0 safe_mode0) in
  active s = false /\
  result (location_callback aval_alt now s) = Ret tt /\
  commands (trace (location_callback aval_alt now s)) = [safe_mode0] /\
  active (final (location_callback aval_alt now s)) = true.
Proof.
  intros Har Hal Ha. cbv zeta.
  destruct (init_fields v safe_alt0 safe_mode0)
    as (Hen & Hact & Hla & Hlt & Hsa & Hsm & _).
  set (s := final (__init__ v safe_alt0 safe_mode0)) in *. clearbody s.
  assert (Hoff : active s = false).
  { rewrite Hact. unfold Qlt_bool. apply negb_false_iff.
    apply Qle_bool_iff. rewrite Hal. apply Qle_refl. }
  assert (Hlow : Qle_bool aval_alt (inject_Z (safe_alt s)) = true).
  { apply Qle_bool_iff. rewrite Hsa, Ha. apply Qle_refl. }
  assert (Hen' : enabled s = true) by congruence.
  assert (H0 : last_alt s == 0) by (rewrite Hla; reflexivity).
  destruct (location_callback_completes s aval_alt now Hen' (or_introl H0))
    as (R & F & C).
  rewrite Hoff, Hlow, Hsm in C. cbn in C.
  repeat split; try assumption.
  rewrite F. cbn. unfold active_after. rewrite Hoff. exact Hlow.
Qed.

Lemma boot_at_threshold_then_first_reading_commands_witness :
  armed vehicle_armed_10 = true /\
  alt vehicle_armed_10 == inject_Z 10 /\
  10 == inject_Z 10 /\
  active (final (__init__ vehicle_armed_10 10 "BRAKE")) = false /\
  commands (trace (location_callback 10 1
                     (final (__init__ vehicle_armed_10 10 "BRAKE"))))
    = ["BRAKE"].
Proof.
  assert (Hal : alt vehicle_armed_10 == inject_Z 10) by reflexivity.
  assert (Ha : 10 == inject_Z 10) by reflexivity.
  split; [reflexivity |]. split; [exact Hal |]. split; [exact Ha |].
  pose proof (boot_at_threshold_then_first_reading_commands
                vehicle_armed_10 10 "BRAKE" 10 1 eq_refl Hal Ha) as H.
  cbv zeta in H.
  split; [exact (proj1 H) | exact (proj1 (proj2 (proj2 H)))].
Defined.

(** What one handler call can add to the commands: nothing, or
    [safe_mode] once, and then [active] is true afterwards. *)
Lemma handle_commands_cases (ev : Event) (s : SafetyNet) :
  commands (trace (handle ev s)) = [] \/
  (commands (trace (handle ev s)) = [safe_mode s] /\
   active s = false /\
   active (final (handle ev s)) = true).
Proof.
  destruct (commands (trace (handle ev s))) as [| m rest] eqn:E.
  - left. reflexivity.
  - right.
    assert (Hne : commands (trace (handle ev s)) <> [])
      by (rewrite E; discriminate).
    destruct (handle_commands ev s Hne) as [Hoff Hon].
    destruct (handle_activation ev s Hoff Hon) as (a & n & _ & _ & _ & Hc).
    rewrite <- E. repeat split; assumption.
Qed.

(** While [active] is true and no reading exceeds [safe_alt + 1], a run
    issues no command and [active] stays true. *)
Lemma run_quiet_while_active (evs : list Event) :
  forall s : SafetyNet,
    active s = true ->
    (forall aval_alt now,
       In (LocationChanged aval_alt now) evs ->
       aval_alt <= inject_Z (safe_alt s + 1)) ->
    commands (snd (run evs s)) = [] /\ active (fst (run evs s)) = true.
Proof.
  induction evs as [| ev rest IH]; intros s Hs Hband; simpl.
  - split; [reflexivity | assumption].
  - assert (Hon : active (final (handle ev s)) = true).
    { destruct (active (final (handle ev s))) eqn:E; [reflexivity |].
      destruct (handle_deactivation ev s Hs E) as (a & n & Heq & _ & Hlt).
      exfalso. apply (Qlt_not_le _ _ Hlt). apply (Hband a n).
      left. exact Heq. }
    assert (Hnone : commands (trace (handle ev s)) = []).
    { destruct (handle_commands_cases ev s) as [H | (_ & Hoff & _)];
        [exact H | congruence]. }
    destruct (IH (final (handle ev s)) Hon) as [Hc Ha].
    { intros a n Hin. rewrite handle_safe_alt. apply (Hband a n). right. exact Hin. }
    rewrite commands_app, Hnone, Hc. split; [reflexivity | exact Ha].
Qed.

(** X5.  A monitor whose [active] is true (for instance one constructed
    below the threshold) issues no command at all, over any sequence of
    armed-state, mode and location events, as long as no reading exceeds
    [safe_alt + 1]; [active] is still true at the end. *)
Theorem no_command_while_active_and_within_band
  (s : SafetyNet) (evs : list Event) :
  active s = true ->
  (forall aval_alt now,
     In (LocationChanged aval_alt now) evs ->
     aval_alt <= inject_Z (safe_alt s + 1)) ->
  commands (snd (run evs s)) = [] /\ active (fst (run evs s)) = true.
Proof.
  apply run_quiet_while_active.
Qed.

Lemma no_command_while_active_and_within_band_witness :
  active net_triggered = true /\
  commands (snd (run [LocationChanged 3 101; ArmedChanged false;
                      ArmedChanged true; LocationChanged 11 102;
                      LocationChanged 2 103] net_triggered)) = [].
Proof.
  split; [reflexivity |].
  apply (no_command_while_active_and_within_band net_triggered
           [LocationChanged 3 101; ArmedChanged false;
            ArmedChanged true; LocationChanged 11 102;
            LocationChanged 2 103] eq_refl).
  intros a n Hin. simpl in Hin.
  destruct Hin as [H | [H | [H | [H | [H | []]]]]];
    try discriminate H; injection H as <- _; discriminate.
Defined.

(** X6.  Over any sequence of events in which no reading exceeds
    [safe_alt + 1], the whole run issues the command at most once,
    whatever the starting state and however the readings move at or below
    that level. *)
Theorem at_most_one_command_within_band
  (s : SafetyNet) (evs : list Event) :
  (forall aval_alt now,
     In (LocationChanged aval_alt now) evs ->
     aval_alt <= inject_Z (safe_alt s + 1)) ->
  (List.length (commands (snd (run evs s))) <= 1)%nat.
Proof.
  revert s. induction evs as [| ev rest IH]; intros s Hband; simpl.
  - lia.
  - rewrite commands_app, length_app.
    assert (Hrest : forall a n, In (LocationChanged a n) rest ->
                      a <= inject_Z (safe_alt (final (handle ev s)) + 1)).
    { intros a n Hin. rewrite handle_safe_alt. apply (Hband a n). right. exact Hin. }
    destruct (handle_commands_cases ev s) as [H | (H & _ & Hon)].
    + rewrite H. simpl. apply IH. exact Hrest.
    + rewrite H. simpl.
      destruct (run_quiet_while_active rest _ Hon Hrest) as [Hc _].
      rewrite Hc. simpl. lia.
Qed.

Lemma at_most_one_command_within_band_witness :
  (List.length (commands (snd (run [LocationChanged 8 1; LocationChanged 11 2;
                               LocationChanged 9 3; LocationChanged 10 4]
                              net_watching))) <= 1)%nat.
Proof.
  apply (at_most_one_command_within_band net_watching).
  intros a n Hin. simpl in Hin.
  destruct Hin as [H | [H | [H | [H | []]]]];
    injection H as <- _; discriminate.
Defined.

(** X7.  Every command a run issues is the configured [safe_mode]: the
    monitor never assigns any other mode to the vehicle. *)
Theorem every_command_is_safe_mode (s : SafetyNet) (evs : list Event) :
  forall m : string, In m (commands (snd (run evs s))) -> m = safe_mode s.
Proof.
  revert s. induction evs as [| ev rest IH]; intros s m Hin; simpl in Hin.
  - contradiction.
  - rewrite commands_app in Hin. apply in_app_or in Hin.
    destruct Hin as [Hin | Hin].
    + destruct (handle_commands_cases ev s) as [H | (H & _)];
        rewrite H in Hin; simpl in Hin.
      * contradiction.
      * destruct Hin as [Hm | []]. symmetry. exact Hm.
    + rewrite (IH _ _ Hin). apply handle_safe_mode.
Qed.

Lemma every_command_is_safe_mode_witness :
  In "BRAKE" (commands (snd (run [LocationChanged 8 1] net_watching))) /\
  "BRAKE" = safe_mode net_watching.
Proof.
  assert (Hin : In "BRAKE"
                  (commands (snd (run [LocationChanged 8 1] net_watching))))
    by (left; reflexivity).
  split; [exact Hin |].
  exact (every_command_is_safe_mode net_watching [LocationChanged 8 1]
           "BRAKE" Hin).
Defined.

(** X8.  The configuration is never reassigned: after any sequence of
    events [safe_alt] and [safe_mode] are what construction stored. *)
Theorem configuration_is_immutable
  (v : Vehicle) (safe_alt0 : Z) (safe_mode0 : string) (evs : list Event) :
  let s := fst (run evs (final (__init__ v safe_alt0 safe_mode0))) in
  safe_alt s = safe_alt0 /\ safe_mode s = safe_mode0.
Proof.
  cbv zeta.
  destruct (init_fields v safe_alt0 safe_mode0)
    as (_ & _ & _ & _ & Hsa & Hsm & _).
  set (s0 := final (__init__ v safe_alt0 safe_mode0)) in *. clearbody s0.
  rewrite <- Hsa, <- Hsm. clear Hsa Hsm.
  revert s0. induction evs as [| ev rest IH]; intros s0; simpl.
  - split; reflexivity.
  - destruct (IH (final (handle ev s0))) as [Ha Hm].
    rewrite Ha, Hm, handle_safe_alt, handle_safe_mode. split; reflexivity.
Qed.

(** X9.  A handler raises only in one situation: a location event while
    [enabled], with a stored altitude other than zero and a clock value
    equal to the stored one.  The armed and mode handlers never raise, and
    a handler that raises has changed nothing and sent nothing out. *)
Theorem handler_raises_only_on_zero_elapsed_time
  (s : SafetyNet) (ev : Event) (e : Exn) :
  result (handle ev s) = Raise e ->
  (exists aval_alt now,
     ev = LocationChanged aval_alt now /\
     enabled s = true /\
     ~ last_alt s == 0 /\
     now == last_alt_time s) /\
  final (handle ev s) = s /\
  trace (handle ev s) = [].
Proof.
  destruct s as [v sa sm act en la lt].
  destruct ev as [aval | name | a n].
  - destruct aval; unfold_method; step_method; discriminate.
  - unfold_method; step_method; split_tests; discriminate.
  - unfold_method; step_method.
    destruct en; step_method; [| discriminate].
    destruct (Qeq_bool la 0) eqn:Ela; step_method.
    + destruct act; step_method; split_tests; discriminate.
    + destruct (Qeq_bool (n - lt) 0) eqn:Et; step_method.
      * intros _. split; [| split; reflexivity].
        exists a, n. repeat split.
        -- intros H0. apply Qeq_bool_iff in H0. congruence.
        -- apply Qeq_bool_iff in Et.
           rewrite <- (Qplus_0_l lt). rewrite <- Et. unfold Qminus.
           rewrite <- Qplus_assoc. rewrite (Qplus_comm (- lt) lt).
           rewrite Qplus_opp_r. rewrite Qplus_0_r. reflexivity.
      * destruct act; step_method; split_tests; discriminate.
Qed.

Lemma handler_raises_only_on_zero_elapsed_time_witness :
  result (handle (LocationChanged 8 100) net_descending)
    = Raise ZeroDivisionError /\
  final (handle (LocationChanged 8 100) net_descending) = net_descending /\
  trace (handle (LocationChanged 8 100) net_descending) = [].
Proof.
  split; [reflexivity |].
  exact (proj2 (handler_raises_only_on_zero_elapsed_time
                  net_descending (LocationChanged 8 100) ZeroDivisionError
                  eq_refl)).
Defined.

(** X10.  The safety action does fire: a location event at or below
    [safe_alt], delivered while [enabled] is true and [active] is false,
    with no reading stored yet or with the clock moved since the stored
    one, returns normally, assigns [safe_mode] to [vehicle.mode] exactly
    once, sets [active] and stores the reading and its clock value. *)
Theorem low_reading_issues_command (s : SafetyNet) (aval_alt now : Q) :
  enabled s = true ->
  active s = false ->
  aval_alt <= inject_Z (safe_alt s) ->
  last_alt s == 0 \/ ~ now == last_alt_time s ->
  let o := location_callback aval_alt now s in
  result o = Ret tt /\
  commands (trace o) = [safe_mode s] /\
  active (final o) = true /\
  last_alt (final o) = aval_alt /\
  last_alt_time (final o) = now /\
  enabled (final o) = true.
Proof.
  intros Hen Hoff Hlow Hok. cbv zeta.
  destruct (location_callback_completes s aval_alt now Hen Hok)
    as (R & F & C).
  apply Qle_bool_iff in Hlow.
  rewrite Hoff, Hlow in C. cbn in C.
  rewrite F. unfold active_after. rewrite Hoff, Hlow.
  repeat split; try assumption.
Qed.

Lemma low_reading_issues_command_witness :
  enabled net_watching = true /\
  active net_watching = false /\
  8 <= inject_Z (safe_alt net_watching) /\
  commands (trace (location_callback 8 1 net_watching)) = ["BRAKE"].
Proof.
  assert (Hlow : 8 <= inject_Z (safe_alt net_watching)) by discriminate.
  assert (H0 : last_alt net_watching == 0) by reflexivity.
  split; [reflexivity |]. split; [reflexivity |]. split; [exact Hlow |].
  pose proof (low_reading_issues_command net_watching 8 1
                eq_refl eq_refl Hlow (or_introl H0)) as H.
  cbv zeta in H. exact (proj1 (proj2 H)).
Defined.

(** X11.  Inside the hysteresis band, strictly above [safe_alt] and at
    most [safe_alt + 1], a reading never changes [active] and never
    issues a command, whether [active] was true or false. *)
Theorem reading_in_band_changes_nothing (s : SafetyNet) (aval_alt now : Q) :
  inject_Z (safe_alt s) < aval_alt ->
  aval_alt <= inject_Z (safe_alt s + 1) ->
  let o := location_callback aval_alt now s in
  active (final o) = active s /\ commands (trace o) = [].
Proof.
  intros Hlo Hhi. cbv zeta.
  assert (Hle : Qle_bool aval_alt (inject_Z (safe_alt s)) = false).
  { destruct (Qle_bool aval_alt (inject_Z (safe_alt s))) eqn:E;
      [| reflexivity].
    apply Qle_bool_iff in E. exfalso. exact (Qlt_not_le _ _ Hlo E). }
  assert (Hgt : Qgt_bool aval_alt (inject_Z (safe_alt s + 1)) = false).
  { unfold Qgt_bool, Qlt_bool. apply negb_false_iff.
    apply Qle_bool_iff. exact Hhi. }
  destruct s as [v sa sm act en la lt]. cbn [safe_alt] in *.
  unfold_method; step_method.
  destruct en; step_method; [| split; reflexivity].
  destruct (Qeq_bool la 0); step_method;
    [| destruct (Qeq_bool (now - lt) 0); step_method;
       [split; reflexivity |] ];
    destruct act; step_method; rewrite ?Hle, ?Hgt; step_method;
    split; reflexivity.
Qed.

Lemma reading_in_band_changes_nothing_witness :
  inject_Z (safe_alt net_triggered) < 21 # 2 /\
  21 # 2 <= inject_Z (safe_alt net_triggered + 1) /\
  active (final (location_callback (21 # 2) 101 net_triggered)) = true /\
  commands (trace (location_callback (21 # 2) 101 net_triggered)) = [].
Proof.
  assert (Hlo : inject_Z (safe_alt net_triggered) < 21 # 2) by reflexivity.
  assert (Hhi : 21 # 2 <= inject_Z (safe_alt net_triggered + 1))
    by discriminate.
  split; [exact Hlo |]. split; [exact Hhi |].
  exact (reading_in_band_changes_nothing net_triggered (21 # 2) 101 Hlo Hhi).
Defined.

(** X12.  The monitor stands down: a location event strictly above
    [safe_alt + 1], delivered while [enabled] and [active] are true, with
    no reading stored yet or with the clock moved, clears [active],
    issues no command and logs the deactivation warning last. *)
Theorem high_reading_clears_active (s : SafetyNet) (aval_alt now : Q) :
  enabled s = true ->
  active s = true ->
  inject_Z (safe_alt s + 1) < aval_alt ->
  last_alt s == 0 \/ ~ now == last_alt_time s ->
  let o := location_callback aval_alt now s in
  result o = Ret tt /\
  active (final o) = false /\
  commands (trace o) = [] /\
  last (trace o) (SetMode "")
    = Log WARNING "deactivated safety net @ %d meters" (NumArg aval_alt).
Proof.
  intros Hen Hon Hhi Hok. cbv zeta.
  apply lt_Qgt_bool in Hhi.
  destruct s as [v sa sm act en la lt].
  cbn [enabled active safe_alt last_alt last_alt_time] in *. subst en act.
  unfold_method; step_method.
  destruct (Qeq_bool la 0) eqn:Ela; step_method.
  - rewrite Hhi. step_method. repeat split; reflexivity.
  - assert (Hne : Qeq_bool (now - lt) 0 = false).
    { destruct Hok as [H0 | Hclock].
      - apply Qeq_bool_iff in H0. congruence.
      - apply elapsed_nonzero; assumption. }
    rewrite Hne. step_method. rewrite Hhi. step_method.
    repeat split; reflexivity.
Qed.

Lemma high_reading_clears_active_witness :
  enabled net_triggered = true /\
  active net_triggered = true /\
  inject_Z (safe_alt net_triggered + 1) < 12 /\
  active (final (location_callback 12 101 net_triggered)) = false.
Proof.
  assert (Hhi : inject_Z (safe_alt net_triggered + 1) < 12) by reflexivity.
  assert (Hclock : ~ 101 == last_alt_time net_triggered)
    by (intros H; discriminate H).
  split; [reflexivity |]. split; [reflexivity |]. split; [exact Hhi |].
  pose proof (high_reading_clears_active net_triggered 12 101
                eq_refl eq_refl Hhi (or_intror Hclock)) as H.
  cbv zeta in H. exact (proj1 (proj2 H)).
Defined.

(** Location events delivered while [enabled] is false do nothing. *)
Lemma run_locations_disabled (evs : list Event) (s : SafetyNet) :
  enabled s = false ->
  forallb is_location evs = true ->
  run evs s = (s, []).
Proof.
  intros Hdis. induction evs as [| ev rest IH]; intros Hloc; simpl.
  - reflexivity.
  - simpl in Hloc. apply andb_true_iff in Hloc. destruct Hloc as [Hev Hrest].
    destruct ev as [aval | name | a n]; try discriminate Hev.
    cbn [handle]. rewrite (location_callback_disabled s a n Hdis).
    cbn [final trace]. rewrite (IH Hrest). reflexivity.
Qed.

(** X13.  After a disarm, location events that still arrive are ignored:
    however many follow and whatever their altitudes, the object stays as
    the disarm left it, nothing more is sent out and no command is
    issued. *)
Theorem readings_after_disarm_are_ignored
  (s : SafetyNet) (readings : list Event) :
  forallb is_location readings = true ->
  run (ArmedChanged false :: readings) s
  = (final (armed_callback false s), trace (armed_callback false s)) /\
  commands (snd (run (ArmedChanged false :: readings) s)) = [].
Proof.
  intros Hloc.
  assert (Hrun : run (ArmedChanged false :: readings) s
                 = (final (armed_callback false s),
                    trace (armed_callback false s))).
  { cbn [run handle].
    rewrite (run_locations_disabled readings
               (final (armed_callback false s)) eq_refl Hloc).
    cbn [fst snd]. rewrite app_nil_r. reflexivity. }
  split; [exact Hrun |]. rewrite Hrun. reflexivity.
Qed.

Lemma readings_after_disarm_are_ignored_witness :
  forallb is_location [LocationChanged 3 1; LocationChanged 2 2] = true /\
  commands (snd (run [ArmedChanged false; LocationChanged 3 1;
                      LocationChanged 2 2] net_watching)) = [].
Proof.
  split; [reflexivity |].
  exact (proj2 (readings_after_disarm_are_ignored net_watching
                  [LocationChanged 3 1; LocationChanged 2 2] eq_refl)).
Defined.





(** ** The observers registered on the vehicle *)

Lemma Callback_eqb_eq (a b : Callback) : Callback_eqb a b = true <-> a = b.
Proof.
  destruct a, b; simpl; split; intros H; try reflexivity; discriminate H.
Qed.

Lemma Listener_eqb_eq (a b : Listener) : Listener_eqb a b = true <-> a = b.
Proof.
  destruct a as [n1 c1], b as [n2 c2]. unfold Listener_eqb.
  cbn [fst snd]. split.
  - intros H. apply andb_true_iff in H. destruct H as [Hn Hc].
    apply String.eqb_eq in Hn. apply Callback_eqb_eq in Hc. congruence.
  - intros H. injection H as -> ->. apply andb_true_iff. split.
    + apply String.eqb_refl.
    + apply Callback_eqb_eq. reflexivity.
Qed.

Lemma existsb_add (l : Listener) (ls : list Listener) :
  existsb (Listener_eqb l) (add_attribute_listener l ls) = true.
Proof.
  unfold add_attribute_listener.
  destruct (existsb (Listener_eqb l) ls) eqn:E; [exact E |].
  rewrite existsb_app. cbn [existsb].
  rewrite (proj2 (Listener_eqb_eq l l) eq_refl).
  rewrite orb_true_r. reflexivity.
Qed.

Lemma add_add (l : Listener) (ls : list Listener) :
  add_attribute_listener l (add_attribute_listener l ls)
  = add_attribute_listener l ls.
Proof.
  unfold add_attribute_listener at 1. rewrite existsb_add. reflexivity.
Qed.

Lemma remove_add (l : Listener) (ls : list Listener) :
  existsb (Listener_eqb l) ls = false ->
  remove_attribute_listener l (add_attribute_listener l ls) = ls.
Proof.
  intros H. unfold add_attribute_listener. rewrite H.
  induction ls as [| x rest IH]; cbn [app remove_attribute_listener].
  - rewrite (proj2 (Listener_eqb_eq l l) eq_refl). reflexivity.
  - cbn [existsb] in H. apply orb_false_iff in H. destruct H as [Hx Hrest].
    rewrite Hx. rewrite (IH Hrest). reflexivity.
Qed.

Lemma existsb_add_other (l l' : Listener) (ls : list Listener) :
  existsb (Listener_eqb l) ls = true ->
  existsb (Listener_eqb l) (add_attribute_listener l' ls) = true.
Proof.
  intros H. unfold add_attribute_listener.
  destruct (existsb (Listener_eqb l') ls); [exact H |].
  rewrite existsb_app, H. reflexivity.
Qed.

Lemma enabled_vehicle_idempotent (v : Vehicle) :
  enabled_vehicle (enabled_vehicle v) = enabled_vehicle v.
Proof.
  destruct v as [ar al ls lls].
  unfold enabled_vehicle, with_attribute_listeners, with_location_listeners.
  cbn [armed alt attribute_listeners location_listeners].
  rewrite !add_add. reflexivity.
Qed.

Lemma disabled_enabled_vehicle (v : Vehicle) :
  existsb (Listener_eqb location_listener) (location_listeners v) = false ->
  existsb (Listener_eqb mode_listener) (attribute_listeners v) = false ->
  disabled_vehicle (enabled_vehicle v) = v.
Proof.
  destruct v as [ar al ls lls].
  cbn [attribute_listeners location_listeners]. intros Hloc Hmode.
  unfold disabled_vehicle, enabled_vehicle, with_attribute_listeners,
    with_location_listeners.
  cbn [armed alt attribute_listeners location_listeners].
  rewrite (remove_add _ _ Hloc), (remove_add _ _ Hmode). reflexivity.
Qed.

(** X15.  Enabling is idempotent: enabling an already enabled monitor, as
    a second arming event does, leaves the object, and with it the
    observers registered on the vehicle, exactly as the first enabling
    left them; no observer is registered twice. *)
Theorem enable_safety_net_idempotent (s : SafetyNet) :
  final (enable_safety_net (final (enable_safety_net s)))
  = final (enable_safety_net s) /\
  final (armed_callback true (final (armed_callback true s)))
  = final (armed_callback true s).
Proof.
  rewrite !armed_callback_final, !enable_safety_net_eq. cbn [final].
  destruct s as [v sa sm act en la lt].
  unfold set_enabled, set_vehicle.
  cbn [vehicle safe_alt safe_mode active enabled last_alt last_alt_time].
  rewrite enabled_vehicle_idempotent. split; reflexivity.
Qed.

(** X16.  Arming then disarming is a round trip on the vehicle's
    observers: if the location and mode observers were not registered
    before, the disarm removes exactly what the arming added, and the
    monitor ends not enabled with [active] and the stored reading
    untouched. *)
Theorem arm_then_disarm_restores_listeners (s : SafetyNet) :
  existsb (Listener_eqb location_listener)
          (location_listeners (vehicle s)) = false ->
  existsb (Listener_eqb mode_listener)
          (attribute_listeners (vehicle s)) = false ->
  final (armed_callback false (final (armed_callback true s)))
  = set_enabled false s.
Proof.
  intros Hloc Hmode.
  rewrite !armed_callback_final.
  destruct s as [v sa sm act en la lt].
  cbn [vehicle] in Hloc, Hmode.
  unfold set_enabled, set_vehicle.
  cbn [vehicle safe_alt safe_mode active enabled last_alt last_alt_time].
  rewrite (disabled_enabled_vehicle v Hloc Hmode). reflexivity.
Qed.

Lemma arm_then_disarm_restores_listeners_witness :
  final (armed_callback false (final (armed_callback true net_watching)))
  = set_enabled false net_watching.
Proof.
  exact (arm_then_disarm_restores_listeners net_watching eq_refl eq_refl).
Defined.

(** X17.  Construction always registers the armed observer on the
    vehicle, and on an armed vehicle it also registers the location and
    mode observers; on a disarmed vehicle it leaves the location observers
    as they were. *)
Theorem init_registers_listeners
  (v : Vehicle) (safe_alt0 : Z) (safe_mode0 : string) :
  let s := final (__init__ v safe_alt0 safe_mode0) in
  existsb (Listener_eqb armed_listener)
          (attribute_listeners (vehicle s)) = true /\
  (armed v = true ->
   existsb (Listener_eqb location_listener)
           (location_listeners (vehicle s)) = true /\
   existsb (Listener_eqb mode_listener)
           (attribute_listeners (vehicle s)) = true) /\
  (armed v = false ->
   location_listeners (vehicle s) = location_listeners v).
Proof.
  cbv zeta. rewrite init_final. cbv zeta. cbn [vehicle].
  destruct v as [ar al ls lls]. cbn [armed].
  unfold enabled_vehicle, with_attribute_listeners, with_location_listeners.
  destruct ar; cbn [armed alt attribute_listeners location_listeners].
  - split; [| split].
    + apply existsb_add_other. apply existsb_add.
    + intros _. split; apply existsb_add.
    + intros H. discriminate H.
  - split; [| split].
    + apply existsb_add.
    + intros H. discriminate H.
    + intros _. reflexivity.
Qed.

Lemma init_registers_listeners_witness :
  armed vehicle_armed_5 = true /\
  existsb (Listener_eqb location_listener)
    (location_listeners
       (vehicle (final (__init__ vehicle_armed_5 10 "BRAKE")))) = true.
Proof.
  split; [reflexivity |].
  pose proof (init_registers_listeners vehicle_armed_5 10 "BRAKE") as H.
  cbv zeta in H. exact (proj1 (proj1 (proj2 H) eq_refl)).
Defined.
